(** * cvpysdk: the exception catalogue and the Virtual Server instance

    A shallow embedding of [cvpysdk/exception.py] and
    [cvpysdk/instances/vsinstance.py].  Python values are the JSON fragment
    the SDK exchanges with the CommServe; strings are byte strings
    (the text of both modules is ASCII).  Raising is explicit: a call ends
    in [Return v] or in [Raise e], and what was written to [self] or sent to
    the server before a raise stays written. *)

From Stdlib Require Import String Ascii List ZArith Bool Lia.
From stdpp Require Import base option strings gmap.
Import ListNotations.

Local Open Scope string_scope.
Local Open Scope list_scope.
Set Warnings "-register-all".

(** ** Python values and exceptions *)

Module Py.

(** The values that occur in the properties documents: JSON read by
    [response.json()] and the literals the SDK builds.  A [dict] keeps the
    order in which its keys were inserted, as Python's does; its keys are
    strings, as JSON's are. *)
Inductive pyval : Type :=
| PyNone
| PyBool (b : bool)
| PyInt (n : Z)
| PyStr (s : string)
| PyList (l : list pyval)
| PyDict (d : list (string * pyval)).

(** The exceptions the two modules can end in.  [SDKException] carries the
    three attributes its [__init__] assigns. *)
Inductive exn : Type :=
| KeyError (key : pyval)
| TypeError
| IndexError
| AttributeError
| SDKException (exception_module exception_id exception_message : string).

Inductive outcome (A : Type) : Type :=
| Return (a : A)
| Raise (e : exn).
Arguments Return {A} a.
Arguments Raise {A} e.

Definition obind {A B} (c : outcome A) (k : A -> outcome B) : outcome B :=
  match c with
  | Return a => k a
  | Raise e => Raise e
  end.

(** [isinstance(v, str)], [str] being the text type. *)
Definition isinstance_str (v : pyval) : bool :=
  match v with
  | PyStr _ => true
  | _ => false
  end.

(** [str.lower()] on ASCII text: the letters A-Z move to a-z. *)
Definition lower_ascii (c : ascii) : ascii :=
  let n := nat_of_ascii c in
  if (65 <=? n)%nat && (n <=? 90)%nat then ascii_of_nat (n + 32) else c.

Fixpoint lower (s : string) : string :=
  match s with
  | EmptyString => EmptyString
  | String c r => String (lower_ascii c) (lower r)
  end.

(** [d.get(k)] as an option, on the entries of a dict. *)
Fixpoint dict_get (d : list (string * pyval)) (k : string) : option pyval :=
  match d with
  | [] => None
  | (k', v) :: r => if String.eqb k k' then Some v else dict_get r k
  end.

(** [d[k] = v]: an existing key keeps its place, a new one goes last. *)
Fixpoint dict_set (d : list (string * pyval)) (k : string) (v : pyval)
  : list (string * pyval) :=
  match d with
  | [] => [(k, v)]
  | (k', v') :: r =>
      if String.eqb k k' then (k', v) :: r else (k', v') :: dict_set r k v
  end.

(** Indexing a sequence by an integer: a negative index counts from the
    end, and an index outside the sequence has no element. *)
Definition seq_index {A} (l : list A) (i : Z) : option A :=
  let n := Z.of_nat (length l) in
  let j := if (i <? 0)%Z then (i + n)%Z else i in
  if (j <? 0)%Z || (n <=? j)%Z then None else nth_error l (Z.to_nat j).

Definition chars (s : string) : list pyval :=
  List.map (fun c => PyStr (String c EmptyString)) (list_ascii_of_string s).

Definition index_or_raise (l : list pyval) (i : Z) : outcome pyval :=
  match seq_index l i with
  | Some v => Return v
  | None => Raise IndexError
  end.

(** [container[key]] *)
Definition py_getitem (container key : pyval) : outcome pyval :=
  match container with
  | PyDict d =>
      match key with
      | PyStr k =>
          match dict_get d k with
          | Some v => Return v
          | None => Raise (KeyError key)
          end
      | PyNone | PyBool _ | PyInt _ => Raise (KeyError key)
      | PyList _ | PyDict _ => Raise TypeError
      end
  | PyList l =>
      match key with
      | PyInt i => index_or_raise l i
      | PyBool b => index_or_raise l (if b then 1 else 0)%Z
      | _ => Raise TypeError
      end
  | PyStr s =>
      match key with
      | PyInt i => index_or_raise (chars s) i
      | PyBool b => index_or_raise (chars s) (if b then 1 else 0)%Z
      | _ => Raise TypeError
      end
  | PyNone | PyBool _ | PyInt _ => Raise TypeError
  end.

(** [item in container], for a string [item]: a key of a dict, an element
    of a list, a substring of a string. *)
Definition py_contains (container : pyval) (item : string) : outcome bool :=
  match container with
  | PyDict d => Return (existsb (fun kv => String.eqb item (fst kv)) d)
  | PyList l =>
      Return (existsb (fun v => match v with
                                | PyStr s => String.eqb item s
                                | _ => false
                                end) l)
  | PyStr s =>
      Return (match index 0 item s with Some _ => true | None => false end)
  | PyNone | PyBool _ | PyInt _ => Raise TypeError
  end.

(** What [for x in v] walks through. *)
Definition py_iter (v : pyval) : outcome (list pyval) :=
  match v with
  | PyList l => Return l
  | PyDict d => Return (List.map (fun kv => PyStr (fst kv)) d)
  | PyStr s => Return (chars s)
  | PyNone | PyBool _ | PyInt _ => Raise TypeError
  end.

(** [v.append(x)] *)
Definition py_append (v x : pyval) : outcome pyval :=
  match v with
  | PyList l => Return (PyList (l ++ [x]))
  | _ => Raise AttributeError
  end.

End Py.
Export Py.

(** ** cvpysdk/exception.py *)

Module exception.

Definition nl : string := String "010"%char "".

(** [EXCEPTION_DICT]: module name, then exception id, then message. *)
Definition EXCEPTION_DICT : gmap string (gmap string string) :=
  list_to_map [
    ("Response", list_to_map [
        ("101", "Response was not success");
        ("102", "Response received is empty")]);
    ("Commcell", list_to_map [
        ("101", "Commcell is not reachable. Please check the commcell name and services again");
        ("102", "Authtoken not received. Please try again.");
        ("103", "Failed to get the CommServ details");
        ("104", "Failed to send an email to specified user")]);
    ("CVPySDK", list_to_map [
        ("101", "Failed to Login with the credentials provided");
        ("102", "");
        ("103", "Reached the maximum attempts limit");
        ("104", "This session has expired. Please login again");
        ("105", "Script Type is not valid")]);
    ("Client", list_to_map [
        ("101", "Data type of the input(s) is not valid");
        ("102", "");
        ("103", "Time Value should be greater than current time");
        ("104", "Time Value entered is not of correct format");
        ("105", "Script Type is not supported");
        ("106", "Failed to get the instance");
        ("107", "Service Restart timed out")]);
    ("Agent", list_to_map [
        ("101", "Data type of the input(s) is not valid");
        ("102", "");
        ("103", "Time Value should be greater than current time");
        ("104", "Time Value entered is not of correct format")]);
    ("Backupset", list_to_map [
        ("101", "Data type of the input(s) is not valid");
        ("102", "")]);
    ("Instance", list_to_map [
        ("101", "Data type of the input(s) is not valid");
        ("102", "");
        ("103", "Input date is incorrect");
        ("104", "Instance Level Browse is not supported. Instance should have a single backupset")]);
    ("Subclient", list_to_map [
        ("101", "Data type of the input(s) is not valid");
        ("102", "");
        ("103", "Backup Level not identified. Please check the backup level again");
        ("104", "File/Folder(s) to restore list is empty");
        ("105", "Type of client should either be the Client class instance or string");
        ("106", "Input date is incorrect");
        ("107", "End Date should be greater than the Start Date");
        ("108", "Time Value should be greater than current time");
        ("109", "Time Value entered is not of correct format");
        ("110", "No data found at the path specified");
        ("111", "No File/Folder matched the input value");
        ("112", "Method Not Implemented");
        ("113", "Type of instance should either be the Instance class instance or string");
        ("114", "Type of backupset should either be the Backupset class instance or string")]);
    ("Job", list_to_map [
        ("101", "Incorrect JobId");
        ("102", "");
        ("103", "No job exists with the specified Job ID");
        ("104", "No records found for this Job")]);
    ("Storage", list_to_map [
        ("101", "Data type of the input(s) is not valid");
        ("102", "");
        ("103", "Type of media agent should either be the MediaAgent class instance or string");
        ("104", "Type of library should either be the DiskLibrary class instance or string");
        ("105", "No storage policies exist for this user")]);
    ("Schedules", list_to_map [
        ("101", "Invalid Class object passed as argument to the Schedules class");
        ("102", "Data type of the input(s) is not valid")]);
    ("ClientGroup", list_to_map [
        ("101", "Data type of the input(s) is not valid");
        ("102", "");
        ("103", "Time Value should be greater than current time");
        ("104", "Time Value entered is not of correct format")]);
    ("UserGroup", list_to_map [
        ("101", "Data type of the input(s) is not valid");
        ("102", "")]);
    ("Domain", list_to_map [
        ("101", "Data type of the input(s) is not valid");
        ("102", "")]);
    ("Alert", list_to_map [
        ("101", "Data type of the input(s) is not valid");
        ("102", "")]);
    ("Workflow", list_to_map [
        ("101", "Data type of the input(s) is not valid");
        ("102", "");
        ("103", "Input is not valid XML / file path");
        ("104", "No Workflow exists with the given name")]);
    ("Datacube", list_to_map [
        ("101", "Data type of the input(s) is not valid");
        ("102", "");
        ("103", "Failed to get the list of analytics engines");
        ("104", "Failed to get the datasources")]);
    ("GlobalFilter", list_to_map [
        ("101", "Data type of the input(s) is not valid");
        ("102", "")]);
    ("Plan", list_to_map [
        ("101", "Data type of the input(s) is not valid");
        ("102", "")]);
    ("Salesforce", list_to_map [
        ("101", "Neither Sync Database enabled nor user provided database details for restore");
        ("102", "")]);
    ("Metrics", list_to_map [
        ("101", "Invalid input(s) specified")]);
    ("InternetOptions", list_to_map [
        ("101", "Invalid input(s) specified")]);
    ("Virtual Machine", list_to_map [
        ("101", "Data type of the input(s) is not valid");
        ("102", "")]);
    ("User", list_to_map [
        ("101", "Data type of input(s) is not valid");
        ("102", "")]);
    ("Security", list_to_map [
        ("101", "Data type of input(s) is not valid");
        ("102", "")]);
    ("DownloadCenter", list_to_map [
        ("101", "Response received is not a proper XML. Please check the XML");
        ("102", "");
        ("103", "Category does not exist at Download Center");
        ("104", "Category already exists at Download Center");
        ("105", "Sub Category already exists for the given Category at Download Center");
        ("106", "Package does not exist at Download Center. Please check the name again");
        ("107", "Failed to download the package");
        ("108", "Category does not exists at Download Center");
        ("109", "Sub Category does not exists at Download Center");
        ("110", "Multiple platforms available. Please specify the platform");
        ("111", "Multiple download types available for this platform. Please specify the download type");
        ("112", "Package is not available for the given platform");
        ("113", "Package is not available for the given download type");
        ("114", "Package already exists with the given name");
        ("115", "Version is not available on Download Center");
        ("116", "Platform is not supported on Download Center");
        ("117", "Download Type is not supported on Download Center");
        ("118", "File is not a valid README file");
        ("119", "Failed to upload the package")]);
    ("Organization", list_to_map [
        ("101", "Data type of the input(s) is not valid");
        ("102", "");
        ("103", "No organization exists with the given name");
        ("104", "Failed to delete the organization");
        ("105", "Email address is not valid");
        ("106", "Organization already exists");
        ("107", "Failed to add organization");
        ("108", "Failed to enable Auth Code Generation for the Organization");
        ("109", "Failed to disable Auth Code Generation for the Organization");
        ("110", "Failed to update the properties of the Organization");
        ("111", "Plan is not associated with the organization. Add plan to the Organization, and then set it as the default")]);
    ("StoragePool", list_to_map [
        ("101", "Data type of the input(s) is not valid");
        ("102", "");
        ("103", "No storage pool exists with the given name")]);
    ("Monitoring", list_to_map [
        ("101", "Data type of the input(s) is not valid");
        ("102", "")])
  ].

(** [d[key]] on a dictionary with string keys. *)
Definition getitem {V} (d : gmap string V) (key : string) : outcome V :=
  match d !! key with
  | Some v => Return v
  | None => Raise (KeyError (PyStr key))
  end.

(** The expression [EXCEPTION_DICT[exception_module][exception_id]]. *)
Definition EXCEPTION_DICT_message (exception_module exception_id : string)
  : outcome string :=
  obind (getitem EXCEPTION_DICT exception_module) (fun by_id =>
  getitem by_id exception_id).

(** [SDKException.__init__]; the value is the initialised exception.
    [exception_message] defaults to the empty string, and [if s:] on a
    string asks whether it is non-empty. *)
Definition SDKException_init
    (exception_module exception_id exception_message : string) : outcome exn :=
  obind (EXCEPTION_DICT_message exception_module exception_id)
    (fun self_exception_message =>
  let self_exception_message :=
    if negb (String.eqb exception_message "") then
      if negb (String.eqb self_exception_message "") then
        String.concat nl [self_exception_message; exception_message]
      else exception_message
    else self_exception_message in
  Return (SDKException exception_module exception_id self_exception_message)).

(** [raise SDKException(module, id)]: the exception is built first, and
    whatever building it raises is raised in its place. *)
Definition raise_SDKException {A} (exception_module exception_id : string)
  : outcome A :=
  obind (SDKException_init exception_module exception_id "") (fun e => Raise e).

End exception.
Export exception.

(** ** cvpysdk/constants.py *)

Module constants.

(** [constants.hypervisor_type] is an enumeration whose file is not among
    the sources.  [__new__] reads the [value] of five of its members and
    nothing else, so the embedding takes those five strings as a table
    and every statement about the dispatch holds for all tables. *)
Record hypervisor_type : Type := {
  VIRTUAL_CENTER : string;
  MS_VIRTUAL_SERVER : string;
  AMAZON : string;
  AZURE : string;
  AZURE_V2 : string
}.

End constants.
Export constants.

(** ** cvpysdk/instances/vsinstance.py *)

Module vsinstance.

(** The classes [__new__] can allocate. *)
Inductive vs_class : Type :=
| VMwareInstance
| HyperVInstance
| AmazonInstance
| AzureInstance
| AzureRMInstance.

Section Dispatch.

Variable hv_type : hypervisor_type.

(** [VirtualServerInstance.__new__]: [Some c] is the fresh object of class
    [c] that [object.__new__] hands back, [None] is Python's [None], the
    value of a call that falls off the end of the function.  The arguments
    [cls], [agent_object] and [instance_id] are not read. *)
Definition __new__ (instance_name : string) : option vs_class :=
  if String.eqb instance_name (lower (VIRTUAL_CENTER hv_type)) then
    Some VMwareInstance
  else if String.eqb instance_name (lower (MS_VIRTUAL_SERVER hv_type)) then
    Some HyperVInstance
  else if String.eqb instance_name (lower (AMAZON hv_type)) then
    Some AmazonInstance
  else if String.eqb instance_name (lower (AZURE hv_type)) then
    Some AzureInstance
  else if String.eqb instance_name (lower (AZURE_V2 hv_type)) then
    Some AzureRMInstance
  else None.

End Dispatch.

(** *** The objects an instance talks to *)

(** [self._commcell_object.clients] and [.client_groups]: the two existence
    checks, the only thing the setter asks of them. *)
Record Clients : Type := { has_client : pyval -> bool }.
Record ClientGroups : Type := { has_clientgroup : pyval -> bool }.
Record Commcell : Type := {
  clients : Clients;
  client_groups : ClientGroups
}.

(** The attributes of [self] this file reads or writes; [None] is an
    attribute that has not been assigned. *)
Record VirtualServerInstance : Type := {
  _commcell_object : Commcell;
  _properties : option pyval;
  _virtualserverinstance : option pyval;
  _vsinstancetype : option pyval;
  _asscociatedclients : option pyval;
  _associated_clients : option pyval
}.

(** The CommServe end: the properties document it holds for this instance,
    whether it answers a request with success, and the property updates it
    has been sent (attribute path and value), oldest first. *)
Record CommServe : Type := {
  instanceProperties : pyval;
  acknowledges : bool;
  submitted : list (string * pyval)
}.

Record world : Type := {
  self : VirtualServerInstance;
  server : CommServe
}.

(** A method body: it ends in a value or a raise, and leaves a world. *)
Definition M (A : Type) : Type := world -> outcome A * world.

#[global] Instance M_ret : MRet M := fun A (a : A) w => (Return a, w).

#[global] Instance M_bind : MBind M := fun A B (k : A -> M B) (c : M A) w =>
  match c w with
  | (Return a, w') => k a w'
  | (Raise e, w') => (Raise e, w')
  end.

Definition lift {A} (o : outcome A) : M A := fun w => (o, w).

(** [for x in l: body] *)
Fixpoint for_each {A} (l : list A) (body : A -> M unit) : M unit :=
  match l with
  | [] => mret tt
  | x :: r => body x;; for_each r body
  end.

(** [for x in l: body], the body updating a local variable [s]. *)
Fixpoint for_each_with {A S} (l : list A) (s : S) (body : S -> A -> M S) : M S :=
  match l with
  | [] => mret s
  | x :: r => s' ← body s x; for_each_with r s' body
  end.

(** Reading an attribute of [self]. *)
Definition getattr (field : VirtualServerInstance -> option pyval) : M pyval :=
  fun w =>
    match field (self w) with
    | Some v => (Return v, w)
    | None => (Raise AttributeError, w)
    end.

(** [self._commcell_object] *)
Definition commcell_object : M Commcell :=
  fun w => (Return (_commcell_object (self w)), w).

Definition update_self (f : VirtualServerInstance -> VirtualServerInstance) : M unit :=
  fun w => (Return tt, {| self := f (self w); server := server w |}).

Definition set__properties (v : pyval) : M unit :=
  update_self (fun s =>
    {| _commcell_object := _commcell_object s;
       _properties := Some v;
       _virtualserverinstance := _virtualserverinstance s;
       _vsinstancetype := _vsinstancetype s;
       _asscociatedclients := _asscociatedclients s;
       _associated_clients := _associated_clients s |}).

Definition set__virtualserverinstance (v : pyval) : M unit :=
  update_self (fun s =>
    {| _commcell_object := _commcell_object s;
       _properties := _properties s;
       _virtualserverinstance := Some v;
       _vsinstancetype := _vsinstancetype s;
       _asscociatedclients := _asscociatedclients s;
       _associated_clients := _associated_clients s |}).

Definition set__vsinstancetype (v : pyval) : M unit :=
  update_self (fun s =>
    {| _commcell_object := _commcell_object s;
       _properties := _properties s;
       _virtualserverinstance := _virtualserverinstance s;
       _vsinstancetype := Some v;
       _asscociatedclients := _asscociatedclients s;
       _associated_clients := _associated_clients s |}).

Definition set__asscociatedclients (v : pyval) : M unit :=
  update_self (fun s =>
    {| _commcell_object := _commcell_object s;
       _properties := _properties s;
       _virtualserverinstance := _virtualserverinstance s;
       _vsinstancetype := _vsinstancetype s;
       _asscociatedclients := Some v;
       _associated_clients := _associated_clients s |}).

Definition set__associated_clients (v : pyval) : M unit :=
  update_self (fun s =>
    {| _commcell_object := _commcell_object s;
       _properties := _properties s;
       _virtualserverinstance := _virtualserverinstance s;
       _vsinstancetype := _vsinstancetype s;
       _asscociatedclients := _asscociatedclients s;
       _associated_clients := Some v |}).

(** [raise SDKException(module, id)] inside a method. *)
Definition raise_ {A} (exception_module exception_id : string) : M A :=
  lift (raise_SDKException exception_module exception_id).

(** *** The base class [Instance] *)

(** Modelled from the spec: [Instance._get_instance_properties], the base
    class method that [super()._get_instance_properties()] runs, is defined
    in cvpysdk/instance.py, which is not among the sources.  The spec has it
    as the collaborator "fetch_properties(entityRef) -> propertiesDocument
    (JSON-like structure), used for lazy population", which "fills generic
    instance fields"; the docstring of the override names its failure,
    "SDKException: if response is not success", which the catalogue files
    under ('Response', '101'). *)
Definition Instance_get_instance_properties : M unit :=
  fun w =>
    if acknowledges (server w)
    then set__properties (instanceProperties (server w)) w
    else raise_ "Response" "101" w.

(** Modelled from the spec: where on the server an attribute path of
    [self] lands.  The one path this file submits is "addressed at the
    nested path virtualServerInstance.associatedClients". *)
Definition property_path (attr_name : string) : list string :=
  if String.eqb attr_name "_virtualserverinstance['associatedClients']"
  then ["virtualServerInstance"; "associatedClients"]
  else [attr_name].

(** Writing [value] at a path of nested dicts; a step that is missing, or
    that is not a dict, becomes a dict holding the rest of the path. *)
Fixpoint store_at (path : list string) (value doc : pyval) : pyval :=
  match path with
  | [] => value
  | k :: rest =>
      let d := match doc with PyDict d => d | _ => [] end in
      let old := match dict_get d k with Some v => v | None => PyDict [] end in
      PyDict (dict_set d k (store_at rest value old))
  end.

(** Modelled from the spec: [Instance._set_instance_properties], defined in
    cvpysdk/instance.py, which is not among the sources.  The spec has it
    as the collaborator "submit_property_update(entityRef, path, value) ->
    success/failure, used for partial updates", and a change as "not
    considered durable until the server acknowledges": the request is sent,
    a server that acknowledges holds [value] at the path from then on, and
    one that does not keeps its document, the failure being the setter's
    documented "SDKException: if response is not success".  The attributes
    of [self] stay as they are until properties are fetched again. *)
Definition _set_instance_properties (attr_name : string) (value : pyval) : M unit :=
  fun w =>
    let srv := server w in
    let sent := submitted srv ++ [(attr_name, value)] in
    if acknowledges srv then
      (Return tt,
       {| self := self w;
          server := {| instanceProperties :=
                         store_at (property_path attr_name) value
                                  (instanceProperties srv);
                       acknowledges := acknowledges srv;
                       submitted := sent |} |})
    else
      raise_ "Response" "101"
        {| self := self w;
           server := {| instanceProperties := instanceProperties srv;
                        acknowledges := acknowledges srv;
                        submitted := sent |} |}.

(** *** class VirtualServerInstance *)

(** [VirtualServerInstance._get_instance_properties] *)
Definition _get_instance_properties : M unit :=
  Instance_get_instance_properties;;
  set__vsinstancetype PyNone;;
  set__asscociatedclients PyNone;;
  properties ← getattr _properties;
  present ← lift (py_contains properties "virtualServerInstance");
  if (present : bool) then
    properties ← getattr _properties;
    v ← lift (py_getitem properties (PyStr "virtualServerInstance"));
    set__virtualserverinstance v;;
    vsi ← getattr _virtualserverinstance;
    v ← lift (py_getitem vsi (PyStr "vsInstanceType"));
    set__vsinstancetype v;;
    vsi ← getattr _virtualserverinstance;
    v ← lift (py_getitem vsi (PyStr "associatedClients"));
    set__asscociatedclients v
  else mret tt.

(** The getter of the property [associated_clients].  A call that leaves
    the [if] without entering it returns [None]. *)
Definition associated_clients : M pyval :=
  set__associated_clients (PyList []);;
  asscociatedclients ← getattr _asscociatedclients;
  present ← lift (py_contains asscociatedclients "memberServers");
  if (present : bool) then
    asscociatedclients ← getattr _asscociatedclients;
    member_servers ← lift (py_getitem asscociatedclients (PyStr "memberServers"));
    items ← lift (py_iter member_servers);
    for_each items (fun client =>
      c ← lift (py_getitem client (PyStr "client"));
      name ← lift (py_getitem c (PyStr "clientName"));
      l ← getattr _associated_clients;
      l ← lift (py_append l name);
      set__associated_clients l);;
    getattr _associated_clients
  else mret PyNone.

(** The setter of the property [associated_clients]. *)
Definition associated_clients_setter (clients_list : list pyval) : M unit :=
  for_each clients_list (fun client_name =>
    if negb (isinstance_str client_name)
    then raise_ "Instance" "105"
    else mret tt);;
  let client_json_list : list pyval := [] in
  let associatedClients := PyDict [("memberServers", PyList client_json_list)] in
  client_json_list ←
    for_each_with clients_list client_json_list (fun client_json_list client_name =>
      let client_json := PyDict [("clientName", client_name)] in
      let client_group_json := PyDict [("clientGroupName", client_name)] in
      let common_json :=
        [("srmReportSet", PyInt 0);
         ("type", PyInt 0);
         ("srmReportType", PyInt 0);
         ("clientSidePackage", PyBool true);
         ("_type_", PyInt 28);
         ("consumeLicense", PyBool true)] in
      let final_json : list (string * pyval) := [] in
      commcell ← commcell_object;
      if has_client (clients commcell) client_name then
        let common_json := dict_set common_json "clientName" client_name in
        let final_json := dict_set final_json "client" (PyDict common_json) in
        mret (client_json_list ++ [PyDict final_json])
      else if has_clientgroup (client_groups commcell) client_name then
        let common_json := dict_set common_json "clientName" client_name in
        let final_json := dict_set final_json "client" (PyDict common_json) in
        mret (client_json_list ++ [PyDict final_json])
      else raise_ "Instance" "105");
  let associatedClients := PyDict [("memberServers", PyList client_json_list)] in
  _set_instance_properties "_virtualserverinstance['associatedClients']"
                           associatedClients.

(** The getter of the property [co_ordinator]. *)
Definition co_ordinator : M pyval :=
  _associated_clients ← associated_clients;
  by_key ← lift (py_getitem _associated_clients (PyStr "Clients"));
  lift (py_getitem by_key (PyInt 0)).

(** The two attributes of [self] that the base class [Instance] assigns
    and this file only reads, in [_get_instance_properties_json]; [None]
    is an attribute that has not been assigned. *)
Record Instance_attributes : Type := {
  _instance : option pyval;
  _instanceActivityControl : option pyval
}.

Definition attribute (a : option pyval) : M pyval :=
  fun w =>
    match a with
    | Some v => (Return v, w)
    | None => (Raise AttributeError, w)
    end.

(** [VirtualServerInstance._get_instance_properties_json]; the values of
    the dict display are evaluated in the order they are written. *)
Definition _get_instance_properties_json (base : Instance_attributes) : M pyval :=
  instance ← attribute (_instance base);
  instanceActivityControl ← attribute (_instanceActivityControl base);
  vsi ← getattr _virtualserverinstance;
  vsInstanceType ← lift (py_getitem vsi (PyStr "vsInstanceType"));
  vsi ← getattr _virtualserverinstance;
  associatedClients ← lift (py_getitem vsi (PyStr "associatedClients"));
  let instance_json :=
    PyDict
      [("instanceProperties",
        PyDict
          [("isDeleted", PyBool false);
           ("instance", instance);
           ("instanceActivityControl", instanceActivityControl);
           ("virtualServerInstance",
            PyDict
              [("vsInstanceType", vsInstanceType);
               ("associatedClients", associatedClients)])])] in
  mret instance_json.

End vsinstance.
Export vsinstance.

(** ** Sample data for the closed examples *)

Module sample.

(** Modelled from the spec: [constants.hypervisor_type] is not among the
    sources.  The spec names the generic discriminator, "virtualcenter";
    the values of the four vendor members are not given anywhere and stand
    here under their vendors' names, for the closed examples only. *)
Definition hypervisor_types : hypervisor_type :=
  {| VIRTUAL_CENTER := "VirtualCenter";
     MS_VIRTUAL_SERVER := "Hyper-V";
     AMAZON := "Amazon";
     AZURE := "Azure";
     AZURE_V2 := "Azure Resource Manager" |}.

(** A CommCell that knows the clients "proxy1" and "proxy2" and the client
    group "proxies". *)
Definition commcell : Commcell :=
  {| clients :=
       {| has_client := fun v =>
            match v with
            | PyStr s => String.eqb s "proxy1" || String.eqb s "proxy2"
            | _ => false
            end |};
     client_groups :=
       {| has_clientgroup := fun v =>
            match v with
            | PyStr s => String.eqb s "proxies"
            | _ => false
            end |} |}.

(** The properties document of an instance with one associated client. *)
Definition properties : pyval :=
  PyDict
    [("instance", PyDict [("instanceName", PyStr "virtualcenter")]);
     ("virtualServerInstance",
      PyDict
        [("vsInstanceType", PyInt 1);
         ("associatedClients",
          PyDict
            [("memberServers",
              PyList [PyDict [("client",
                               PyDict [("clientName", PyStr "proxy0")])]])])])].

(** An instance that has not fetched its properties yet, and its server. *)
Definition fresh : world :=
  {| self := {| _commcell_object := commcell;
                _properties := None;
                _virtualserverinstance := None;
                _vsinstancetype := None;
                _asscociatedclients := None;
                _associated_clients := None |};
     server := {| instanceProperties := properties;
                  acknowledges := true;
                  submitted := [] |} |}.

(** The same instance once [_get_instance_properties] has run. *)
Definition loaded : world := snd (_get_instance_properties fresh).

(** An instance whose associated-clients block came back empty. *)
Definition no_members : world :=
  {| self := {| _commcell_object := commcell;
                _properties := None;
                _virtualserverinstance := None;
                _vsinstancetype := Some (PyInt 1);
                _asscociatedclients := Some (PyDict []);
                _associated_clients := None |};
     server := {| instanceProperties := properties;
                  acknowledges := true;
                  submitted := [] |} |}.

(** A server whose document has no 'virtualServerInstance' block, and an
    instance that has not fetched from it yet. *)
Definition plain : world :=
  {| self := self fresh;
     server := {| instanceProperties :=
                    PyDict [("instance", PyDict [("instanceName", PyStr "default")])];
                  acknowledges := true;
                  submitted := [] |} |}.

(** A server whose 'virtualServerInstance' block has no 'vsInstanceType'. *)
Definition untyped : world :=
  {| self := self fresh;
     server := {| instanceProperties :=
                    PyDict [("virtualServerInstance",
                             PyDict [("associatedClients", PyDict [])])];
                  acknowledges := true;
                  submitted := [] |} |}.

(** An instance holding two member servers, the second without its
    'client' key, then a third. *)
Definition broken_member : world :=
  {| self := {| _commcell_object := commcell;
                _properties := None;
                _virtualserverinstance := None;
                _vsinstancetype := Some (PyInt 1);
                _asscociatedclients :=
                  Some (PyDict
                          [("memberServers",
                            PyList
                              [PyDict [("client",
                                        PyDict [("clientName", PyStr "proxy0")])];
                               PyDict [("clientGroup", PyDict [])];
                               PyDict [("client",
                                        PyDict [("clientName", PyStr "proxy9")])]])]);
                _associated_clients := None |};
     server := server fresh |}.

(** What the base class holds for the sample instance. *)
Definition base_attributes : Instance_attributes :=
  {| _instance := Some (PyDict [("instanceName", PyStr "virtualcenter")]);
     _instanceActivityControl := Some (PyDict []) |}.

End sample.

(** ** The spec's side of the statements *)

(** The five discriminators in the order [__new__] tries them, each with
    the class it selects. *)
Definition discriminators (hv_type : hypervisor_type) : list (string * vs_class) :=
  [(VIRTUAL_CENTER hv_type, VMwareInstance);
   (MS_VIRTUAL_SERVER hv_type, HyperVInstance);
   (AMAZON hv_type, AmazonInstance);
   (AZURE hv_type, AzureInstance);
   (AZURE_V2 hv_type, AzureRMInstance)].

(** The member-server descriptor of the transmitted structure,
    ["client": {"clientName": ..., "srmReportSet": 0, ...}], the keys in
    the order the setter inserts them. *)
Definition client_descriptor (client_name : pyval) : pyval :=
  PyDict
    [("client",
      PyDict
        [("srmReportSet", PyInt 0);
         ("type", PyInt 0);
         ("srmReportType", PyInt 0);
         ("clientSidePackage", PyBool true);
         ("_type_", PyInt 28);
         ("consumeLicense", PyBool true);
         ("clientName", client_name)])].

(** The value the setter submits for a list of names. *)
Definition member_servers (clients_list : list pyval) : pyval :=
  PyDict [("memberServers", PyList (List.map client_descriptor clients_list))].

(** A name the setter can resolve: a client, or else a client group. *)
Definition resolves (c : Commcell) (client_name : pyval) : bool :=
  has_client (clients c) client_name
  || has_clientgroup (client_groups c) client_name.

(** Whether a key occurs anywhere in a value, at any depth. *)
Fixpoint mentions_key (k : string) (v : pyval) : bool :=
  match v with
  | PyList l => existsb (mentions_key k) l
  | PyDict d =>
      existsb (fun kv => String.eqb k (fst kv) || mentions_key k (snd kv)) d
  | _ => false
  end.


(** *** The getter, read as a function *)

(** [client["client"]["clientName"]] *)
Definition entry_name (client : pyval) : outcome pyval :=
  obind (py_getitem client (PyStr "client")) (fun c =>
  py_getitem c (PyStr "clientName")).

(** The names of the entries up to the first whose name cannot be read,
    after those of [acc], and how the reading ended. *)
Fixpoint names_of (items : list pyval) (acc : list pyval)
  : outcome unit * list pyval :=
  match items with
  | [] => (Return tt, acc)
  | x :: r =>
      match entry_name x with
      | Return name => names_of r (acc ++ [name])
      | Raise e => (Raise e, acc)
      end
  end.

(** What a getter call returns or raises, and the list it leaves in
    [self._associated_clients], from [self._asscociatedclients] alone. *)
Definition getter_reading (asscociatedclients : option pyval)
  : outcome pyval * list pyval :=
  match asscociatedclients with
  | None => (Raise AttributeError, [])
  | Some a =>
      match py_contains a "memberServers" with
      | Raise e => (Raise e, [])
      | Return false => (Return PyNone, [])
      | Return true =>
          match py_getitem a (PyStr "memberServers") with
          | Raise e => (Raise e, [])
          | Return member_servers =>
              match py_iter member_servers with
              | Raise e => (Raise e, [])
              | Return items =>
                  match names_of items [] with
                  | (Return _, names) => (Return (PyList names), names)
                  | (Raise e, names) => (Raise e, names)
                  end
              end
          end
      end
  end.

(** The world with [names] in [self._associated_clients]. *)
Definition with_names (names : list pyval) (w : world) : world :=
  snd (set__associated_clients (PyList names) w).

(** The messages of the catalogue, module by module. *)
Definition catalogue_entries : list (string * list (string * string)) :=
  List.map (fun md => (fst md, map_to_list (snd md))) (map_to_list EXCEPTION_DICT).

(** ** The exception catalogue *)

Lemma getitem_Some {V} (d : gmap string V) k v :
  d !! k = Some v -> getitem d k = Return v.
Proof. unfold getitem. intros ->. reflexivity. Qed.

Lemma getitem_None {V} (d : gmap string V) k :
  d !! k = None -> getitem d k = Raise (KeyError (PyStr k)).
Proof. unfold getitem. intros ->. reflexivity. Qed.

Lemma message_present m by_id c s :
  EXCEPTION_DICT !! m = Some by_id -> by_id !! c = Some s ->
  EXCEPTION_DICT_message m c = Return s.
Proof.
  intros Hm Hc. unfold EXCEPTION_DICT_message.
  rewrite (getitem_Some _ _ _ Hm). simpl. exact (getitem_Some _ _ _ Hc).
Qed.

Lemma message_unknown_module m c :
  EXCEPTION_DICT !! m = None ->
  EXCEPTION_DICT_message m c = Raise (KeyError (PyStr m)).
Proof.
  intros Hm. unfold EXCEPTION_DICT_message.
  rewrite (getitem_None _ _ Hm). reflexivity.
Qed.

Lemma message_unknown_id m by_id c :
  EXCEPTION_DICT !! m = Some by_id -> by_id !! c = None ->
  EXCEPTION_DICT_message m c = Raise (KeyError (PyStr c)).
Proof.
  intros Hm Hc. unfold EXCEPTION_DICT_message.
  rewrite (getitem_Some _ _ _ Hm). simpl. exact (getitem_None _ _ Hc).
Qed.


Lemma init_absent m c detail :
  EXCEPTION_DICT !! m ≫= (.!! c) = None ->
  exists k, SDKException_init m c detail = Raise (KeyError (PyStr k)).
Proof.
  intros H. unfold SDKException_init.
  destruct (EXCEPTION_DICT !! m) as [by_id|] eqn:Hm; simpl in H.
  - exists c. rewrite (message_unknown_id _ _ _ Hm H). reflexivity.
  - exists m. rewrite (message_unknown_module _ c Hm). reflexivity.
Qed.

Lemma raise_Instance_105 A :
  @raise_SDKException A "Instance" "105" = Raise (KeyError (PyStr "105")).
Proof. vm_compute. reflexivity. Qed.



(** C8.  [EXCEPTION_DICT[module][id]] is the stored string for a pair of
    the catalogue, so ('Response', '101') gives "Response was not success",
    and the exception built without a detail carries it; for a module the
    catalogue does not have, the lookup raises the [KeyError] of the module
    name, and for a module it has with an id it does not have, the
    [KeyError] of the id.  Building the exception fails the same way. *)
Theorem catalogue_lookup :
  (forall m by_id c s,
      EXCEPTION_DICT !! m = Some by_id -> by_id !! c = Some s ->
      EXCEPTION_DICT_message m c = Return s
      /\ SDKException_init m c "" = Return (SDKException m c s))
  /\ EXCEPTION_DICT_message "Response" "101" = Return "Response was not success"
  /\ (forall m c detail,
        EXCEPTION_DICT !! m = None ->
        EXCEPTION_DICT_message m c = Raise (KeyError (PyStr m))
        /\ SDKException_init m c detail = Raise (KeyError (PyStr m)))
  /\ (forall m by_id c detail,
        EXCEPTION_DICT !! m = Some by_id -> by_id !! c = None ->
        EXCEPTION_DICT_message m c = Raise (KeyError (PyStr c))
        /\ SDKException_init m c detail = Raise (KeyError (PyStr c))).
Proof.
  split; [|split; [vm_compute; reflexivity|split]].
  - intros m by_id c s Hm Hc. unfold SDKException_init.
    rewrite (message_present _ _ _ _ Hm Hc). split; reflexivity.
  - intros m c detail Hm. unfold SDKException_init.
    rewrite (message_unknown_module _ c Hm). split; reflexivity.
  - intros m by_id c detail Hm Hc. unfold SDKException_init.
    rewrite (message_unknown_id _ _ _ Hm Hc). split; reflexivity.
Qed.

Lemma catalogue_lookup_witness :
  EXCEPTION_DICT_message "Storage" "105"
  = Return "No storage policies exist for this user"
  /\ EXCEPTION_DICT_message "Backup" "101" = Raise (KeyError (PyStr "Backup"))
  /\ EXCEPTION_DICT_message "Job" "105" = Raise (KeyError (PyStr "105")).
Proof.
  destruct catalogue_lookup as (Hpresent & _ & Hmodule & Hid).
  destruct (EXCEPTION_DICT !! "Storage") as [storage|] eqn:Hs;
    [|vm_compute in Hs; discriminate].
  destruct (EXCEPTION_DICT !! "Job") as [job|] eqn:Hj;
    [|vm_compute in Hj; discriminate].
  split; [|split].
  - apply (Hpresent "Storage" storage "105"); [exact Hs|].
    vm_compute in Hs. injection Hs as <-. vm_compute. reflexivity.
  - apply (Hmodule "Backup" "101" ""). vm_compute. reflexivity.
  - apply (Hid "Job" job "105" ""); [exact Hj|].
    vm_compute in Hj. injection Hj as <-. vm_compute. reflexivity.
Defined.

(** ** The dispatch in [__new__] *)

Lemma lower_ascii_idempotent c : lower_ascii (lower_ascii c) = lower_ascii c.
Proof. destruct c as [[] [] [] [] [] [] [] []]; reflexivity. Qed.

Lemma lower_idempotent s : lower (lower s) = lower s.
Proof.
  induction s as [|c s IH]; simpl; [reflexivity|].
  rewrite lower_ascii_idempotent, IH. reflexivity.
Qed.

(** A name that [lower] would change is the [lower] of nothing. *)
Lemma not_lowered_differs name d : lower name <> name -> String.eqb name (lower d) = false.
Proof.
  intros H. apply String.eqb_neq. intros ->. apply H, lower_idempotent.
Qed.

Lemma new_first_match hv name :
  __new__ hv name
  = option_map snd
      (List.find (fun p => String.eqb name (lower (fst p))) (discriminators hv)).
Proof.
  unfold __new__, discriminators. simpl.
  repeat (destruct (String.eqb name _); [reflexivity|]). reflexivity.
Qed.

(** C1, as the code has it.  [__new__] compares [instance_name] as it
    stands with the lower-cased value of each of the five discriminators,
    in the order VIRTUAL_CENTER, MS_VIRTUAL_SERVER, AMAZON, AZURE, AZURE_V2,
    and the first that is equal decides; the VMware class is selected
    exactly for the lower-cased VIRTUAL_CENTER value itself, and a name
    with an upper-case letter in it selects nothing. *)
Theorem new_compares_name_unchanged hv name :
  __new__ hv name
  = option_map snd
      (List.find (fun p => String.eqb name (lower (fst p))) (discriminators hv))
  /\ (__new__ hv name = Some VMwareInstance <-> name = lower (VIRTUAL_CENTER hv))
  /\ (lower name <> name -> __new__ hv name = None).
Proof.
  split; [apply new_first_match|split; [split|]].
  - unfold __new__.
    destruct (String.eqb name (lower (VIRTUAL_CENTER hv))) eqn:E.
    + intros _. apply String.eqb_eq. exact E.
    + repeat (destruct (String.eqb name _); [discriminate|]). discriminate.
  - intros ->. unfold __new__. rewrite String.eqb_refl. reflexivity.
  - intros H. unfold __new__.
    rewrite !(not_lowered_differs name _ H). reflexivity.
Qed.

Lemma new_compares_name_unchanged_witness :
  __new__ sample.hypervisor_types "virtualcenter" = Some VMwareInstance
  /\ __new__ sample.hypervisor_types "Hyper-V" = None
  /\ __new__ sample.hypervisor_types "hyper-v" = Some HyperVInstance.
Proof.
  split; [|split].
  - apply (proj1 (proj2 (new_compares_name_unchanged
                           sample.hypervisor_types "virtualcenter"))).
    reflexivity.
  - apply (proj2 (proj2 (new_compares_name_unchanged
                           sample.hypervisor_types "Hyper-V"))).
    vm_compute. discriminate.
  - rewrite (proj1 (new_compares_name_unchanged
                      sample.hypervisor_types "hyper-v")).
    reflexivity.
Defined.

(** C1, as the claim has it, fails: "VIRTUALCENTER" and "VirtualCenter"
    equal "virtualcenter" once case is folded, the VIRTUAL_CENTER value does
    too, and [__new__] selects no class for either. *)
Lemma new_upper_case_virtualcenter_unmatched :
  lower "VIRTUALCENTER" = "virtualcenter"
  /\ lower "VirtualCenter" = "virtualcenter"
  /\ lower (VIRTUAL_CENTER sample.hypervisor_types) = "virtualcenter"
  /\ __new__ sample.hypervisor_types "VIRTUALCENTER" = None
  /\ __new__ sample.hypervisor_types "VirtualCenter" = None.
Proof. repeat split. Qed.

(** C2, what the code does instead.  A name that is none of the five
    lower-cased discriminators makes [__new__] return [None]; nothing is
    raised. *)
Theorem new_unmatched_returns_none hv name :
  (forall d, List.In d (List.map fst (discriminators hv)) -> name <> lower d) ->
  __new__ hv name = None.
Proof.
  intros H. unfold __new__.
  assert (E : forall d, List.In d (List.map fst (discriminators hv)) ->
                        String.eqb name (lower d) = false).
  { intros d Hd. apply String.eqb_neq, H, Hd. }
  rewrite !E; [reflexivity|simpl; tauto..].
Qed.

Lemma new_unmatched_returns_none_witness :
  __new__ sample.hypervisor_types "xenserver" = None.
Proof.
  apply new_unmatched_returns_none.
  simpl. intros d [<-|[<-|[<-|[<-|[<-|[]]]]]]; vm_compute; discriminate.
Defined.

(** ** Running method bodies *)

Lemma bind_run {A B} (c : M A) (k : A -> M B) w :
  (c ≫= k) w
  = match c w with
    | (Return a, w') => k a w'
    | (Raise e, w') => (Raise e, w')
    end.
Proof. reflexivity. Qed.

(** Run the first statement of a body. *)
Ltac run := rewrite bind_run; simpl.

(** A loop whose body either passes, leaving the world alone, or raises
    [e], leaving the world alone. *)
Lemma for_each_checks {A} (ok : A -> bool) e (body : A -> M unit) :
  (forall x w, body x w = if ok x then (Return tt, w) else (Raise e, w)) ->
  forall l w,
    for_each l body w = if forallb ok l then (Return tt, w) else (Raise e, w).
Proof.
  intros Hbody l w. induction l as [|x l IH]; simpl; [reflexivity|].
  rewrite bind_run, Hbody. destruct (ok x); simpl; [exact IH|reflexivity].
Qed.

(** A loop whose body either appends [f x] to its local list or raises
    [e], leaving the world alone either way. *)
Lemma for_each_with_appends {A B} (ok : world -> A -> bool) (f : A -> B) e
    (body : list B -> A -> M (list B)) :
  (forall acc x w,
      body acc x w = if ok w x then (Return (acc ++ [f x]), w) else (Raise e, w)) ->
  forall l acc w,
    for_each_with l acc body w
    = if forallb (ok w) l then (Return (acc ++ List.map f l), w) else (Raise e, w).
Proof.
  intros Hbody l. induction l as [|x l IH]; intros acc w; simpl.
  - rewrite app_nil_r. reflexivity.
  - rewrite bind_run, Hbody. destruct (ok w x); simpl; [|reflexivity].
    rewrite IH, <- app_assoc. reflexivity.
Qed.

(** What holds before a loop and is kept by each pass of its body holds
    after it, however the loop ends. *)
Lemma for_each_keeps {A} (I : world -> Prop) (body : A -> M unit) :
  (forall x w r w', I w -> body x w = (r, w') -> I w') ->
  forall l w r w', I w -> for_each l body w = (r, w') -> I w'.
Proof.
  intros Hbody l. induction l as [|x l IH]; intros w r w' HI; simpl.
  - intros [= <- <-]. exact HI.
  - rewrite bind_run. destruct (body x w) as [[[]|e] w1] eqn:Hx.
    + apply IH. exact (Hbody _ _ _ _ HI Hx).
    + intros [= <- <-]. exact (Hbody _ _ _ _ HI Hx).
Qed.

(** ** The setter of [associated_clients] *)

Lemma raise_Instance_105_run A w :
  @raise_ A "Instance" "105" w = (Raise (KeyError (PyStr "105")), w).
Proof. unfold raise_, lift. rewrite raise_Instance_105. reflexivity. Qed.

(** The setter in one equation: it submits the descriptors of all the
    names when each is a string that resolves, and otherwise raises what
    building [SDKException('Instance', '105')] raises, with nothing
    written and nothing sent. *)
Lemma setter_run clients_list w :
  associated_clients_setter clients_list w
  = if forallb isinstance_str clients_list
       && forallb (resolves (_commcell_object (self w))) clients_list
    then _set_instance_properties "_virtualserverinstance['associatedClients']"
           (member_servers clients_list) w
    else (Raise (KeyError (PyStr "105")), w).
Proof.
  unfold associated_clients_setter. rewrite bind_run.
  rewrite (for_each_checks isinstance_str (KeyError (PyStr "105"))).
  2:{ intros x w0. destruct (isinstance_str x); simpl;
        [reflexivity|apply raise_Instance_105_run]. }
  destruct (forallb isinstance_str clients_list); simpl; [|reflexivity].
  rewrite bind_run.
  rewrite (for_each_with_appends
             (fun w0 => resolves (_commcell_object (self w0)))
             client_descriptor (KeyError (PyStr "105"))).
  2:{ intros acc x w0. unfold resolves.
      rewrite bind_run. unfold commcell_object.
      destruct (has_client _ x); simpl; [reflexivity|].
      destruct (has_clientgroup _ x); simpl;
        [reflexivity|apply raise_Instance_105_run]. }
  destruct (forallb _ clients_list); reflexivity.
Qed.

Lemma forallb_false_of {A} (p : A -> bool) l x :
  List.In x l -> p x = false -> forallb p l = false.
Proof.
  intros Hin Hx. destruct (forallb p l) eqn:E; [|reflexivity].
  rewrite forallb_forall in E. rewrite (E x Hin) in Hx. discriminate.
Qed.

Lemma setter_rejects_non_string clients_list x w :
  List.In x clients_list -> isinstance_str x = false ->
  associated_clients_setter clients_list w = (Raise (KeyError (PyStr "105")), w).
Proof.
  intros Hin Hx. rewrite setter_run.
  rewrite (forallb_false_of _ _ _ Hin Hx). reflexivity.
Qed.

Lemma setter_rejects_unresolved clients_list x w :
  List.In x clients_list -> resolves (_commcell_object (self w)) x = false ->
  associated_clients_setter clients_list w = (Raise (KeyError (PyStr "105")), w).
Proof.
  intros Hin Hx. rewrite setter_run.
  rewrite (forallb_false_of _ _ _ Hin Hx), andb_false_r. reflexivity.
Qed.

(** C3.  The 'Instance' entry of the catalogue has the ids '101' to '104'
    and no other; building an exception for a pair the catalogue does not
    have raises a [KeyError], and for ('Instance', '105') the [KeyError] of
    '105', whatever the detail; so a setter call with an entry that is not
    a string and one with a name that does not resolve end the same way,
    in that [KeyError] and in the world they started from. *)
Theorem instance_105_raises_key_error :
  (exists by_id,
      EXCEPTION_DICT !! "Instance" = Some by_id
      /\ dom by_id = ({[ "101"; "102"; "103"; "104" ]} : gset string))
  /\ (forall m c detail,
        EXCEPTION_DICT !! m ≫= (.!! c) = None ->
        exists k, SDKException_init m c detail = Raise (KeyError (PyStr k)))
  /\ (forall detail,
        SDKException_init "Instance" "105" detail = Raise (KeyError (PyStr "105")))
  /\ (forall w l1 x l2 y,
        List.In x l1 -> isinstance_str x = false ->
        List.In y l2 -> resolves (_commcell_object (self w)) y = false ->
        associated_clients_setter l1 w = (Raise (KeyError (PyStr "105")), w)
        /\ associated_clients_setter l2 w = associated_clients_setter l1 w).
Proof.
  split; [|split; [|split]].
  - eexists. split; [vm_compute; reflexivity|]. vm_compute. reflexivity.
  - apply init_absent.
  - intros detail. vm_compute. reflexivity.
  - intros w l1 x l2 y Hx Hsx Hy Hry.
    rewrite (setter_rejects_non_string l1 x w Hx Hsx).
    rewrite (setter_rejects_unresolved l2 y w Hy Hry). split; reflexivity.
Qed.

Lemma instance_105_raises_key_error_witness :
  associated_clients_setter [PyStr "proxy1"; PyInt 7] sample.loaded
  = (Raise (KeyError (PyStr "105")), sample.loaded)
  /\ associated_clients_setter [PyStr "proxy1"; PyStr "nobody"] sample.loaded
     = associated_clients_setter [PyStr "proxy1"; PyInt 7] sample.loaded.
Proof.
  apply (proj2 (proj2 (proj2 instance_105_raises_key_error))
           sample.loaded _ (PyInt 7) _ (PyStr "nobody")).
  - simpl. tauto.
  - reflexivity.
  - simpl. tauto.
  - vm_compute. reflexivity.
Defined.

(** C4, what the code does.  With an entry that is not a string anywhere
    in the list the setter raises before it has asked the CommCell
    anything or sent the server anything: the world is the one it started
    from.  What it raises is the [KeyError] of '105', from building
    [SDKException('Instance', '105')], and no [SDKException]. *)
Theorem setter_non_string_nothing_sent clients_list x w :
  List.In x clients_list -> isinstance_str x = false ->
  associated_clients_setter clients_list w = (Raise (KeyError (PyStr "105")), w).
Proof. apply setter_rejects_non_string. Qed.

Lemma setter_non_string_nothing_sent_witness :
  associated_clients_setter [PyStr "proxy1"; PyNone; PyStr "proxy2"] sample.loaded
  = (Raise (KeyError (PyStr "105")), sample.loaded).
Proof.
  apply (setter_non_string_nothing_sent _ PyNone).
  - simpl. tauto.
  - reflexivity.
Defined.

(** C5, what the code does.  With a name in the list that is a string and
    is neither a client nor a client group the setter raises, with nothing
    sent; what it raises is again the [KeyError] of '105'. *)
Theorem setter_unresolved_name_raises clients_list name w :
  List.In (PyStr name) clients_list ->
  has_client (clients (_commcell_object (self w))) (PyStr name) = false ->
  has_clientgroup (client_groups (_commcell_object (self w))) (PyStr name) = false ->
  associated_clients_setter clients_list w = (Raise (KeyError (PyStr "105")), w).
Proof.
  intros Hin Hc Hg. apply (setter_rejects_unresolved _ (PyStr name)); [exact Hin|].
  unfold resolves. rewrite Hc, Hg. reflexivity.
Qed.

Lemma setter_unresolved_name_raises_witness :
  associated_clients_setter [PyStr "proxy1"; PyStr "nobody"] sample.loaded
  = (Raise (KeyError (PyStr "105")), sample.loaded).
Proof.
  apply (setter_unresolved_name_raises _ "nobody").
  - simpl. tauto.
  - vm_compute. reflexivity.
  - vm_compute. reflexivity.
Defined.

(** ** What the setter submits *)

Lemma submitted_after_set attr value w :
  submitted (server (snd (_set_instance_properties attr value w)))
  = submitted (server w) ++ [(attr, value)].
Proof.
  unfold _set_instance_properties.
  destruct (acknowledges (server w)); reflexivity.
Qed.


Lemma descriptors_mention_no_group k l :
  forallb isinstance_str l = true ->
  k = "clientGroupName" ->
  existsb (mentions_key k) (List.map client_descriptor l) = false.
Proof.
  intros Hl ->. induction l as [|x l IH]; simpl; [reflexivity|].
  simpl in Hl. apply andb_true_iff in Hl as [Hx Hl].
  rewrite (IH Hl). destruct x; try discriminate. reflexivity.
Qed.

(** C10.  When the setter submits, every name has the descriptor of a
    client, keyed "client" with "clientName" and the six fixed fields, and
    this holds for a name that only the client-group lookup resolved; the
    key "clientGroupName" occurs nowhere in what is submitted. *)
Theorem group_name_submitted_as_client clients_list w :
  forallb isinstance_str clients_list = true ->
  forallb (resolves (_commcell_object (self w))) clients_list = true ->
  exists r w',
    associated_clients_setter clients_list w = (r, w')
    /\ submitted (server w')
       = submitted (server w)
         ++ [("_virtualserverinstance['associatedClients']",
              member_servers clients_list)]
    /\ (forall i name,
          nth_error clients_list i = Some name ->
          has_client (clients (_commcell_object (self w))) name = false ->
          has_clientgroup (client_groups (_commcell_object (self w))) name = true ->
          exists descriptors,
            member_servers clients_list
            = PyDict [("memberServers", PyList descriptors)]
            /\ nth_error descriptors i = Some (client_descriptor name))
    /\ mentions_key "clientGroupName" (member_servers clients_list) = false.
Proof.
  intros Hstr Hres.
  destruct (associated_clients_setter clients_list w) as [r w'] eqn:Hrun.
  exists r, w'. split; [reflexivity|].
  rewrite setter_run, Hstr, Hres in Hrun. simpl in Hrun.
  split; [|split].
  - rewrite <- (submitted_after_set _ _ w), Hrun. reflexivity.
  - intros i name Hi _ _. eexists. split; [reflexivity|].
    apply map_nth_error. exact Hi.
  - unfold member_servers. simpl.
    rewrite (descriptors_mention_no_group _ _ Hstr eq_refl). reflexivity.
Qed.

Lemma group_name_submitted_as_client_witness :
  exists r w',
    associated_clients_setter [PyStr "proxy1"; PyStr "proxies"] sample.loaded
    = (r, w')
    /\ submitted (server w')
       = [("_virtualserverinstance['associatedClients']",
           PyDict [("memberServers",
                    PyList [client_descriptor (PyStr "proxy1");
                            client_descriptor (PyStr "proxies")])])]
    /\ (forall i name,
          nth_error [PyStr "proxy1"; PyStr "proxies"] i = Some name ->
          has_client (clients sample.commcell) name = false ->
          has_clientgroup (client_groups sample.commcell) name = true ->
          exists descriptors,
            member_servers [PyStr "proxy1"; PyStr "proxies"]
            = PyDict [("memberServers", PyList descriptors)]
            /\ nth_error descriptors i = Some (client_descriptor name))
    /\ mentions_key "clientGroupName"
         (member_servers [PyStr "proxy1"; PyStr "proxies"]) = false.
Proof.
  apply (group_name_submitted_as_client [PyStr "proxy1"; PyStr "proxies"]
           sample.loaded).
  - reflexivity.
  - vm_compute. reflexivity.
Defined.

(** ** The getter of [associated_clients] *)



Lemma dict_get_has_key d k v :
  dict_get d k = Some v -> existsb (fun kv => String.eqb k (fst kv)) d = true.
Proof.
  induction d as [|[k' v'] d IH]; simpl; [discriminate|].
  destruct (String.eqb k k'); [reflexivity|exact IH].
Qed.



Lemma dict_get_no_key d k :
  dict_get d k = None -> existsb (fun kv => String.eqb k (fst kv)) d = false.
Proof.
  induction d as [|[k' v'] d IH]; simpl; [reflexivity|].
  destruct (String.eqb k k'); [discriminate|exact IH].
Qed.

(** The getter on an associated-clients dict that has no 'memberServers'
    key returns [None], not an empty list. *)
Theorem getter_without_member_servers_is_none w d :
  _asscociatedclients (self w) = Some (PyDict d) ->
  dict_get d "memberServers" = None ->
  exists w', associated_clients w = (Return PyNone, w').
Proof.
  intros Ha Hd. unfold associated_clients.
  run. rewrite bind_run. unfold getattr at 1. simpl. rewrite Ha.
  rewrite bind_run. unfold lift at 1. unfold py_contains.
  rewrite (dict_get_no_key _ _ Hd). eexists. reflexivity.
Qed.

Lemma getter_without_member_servers_is_none_witness :
  exists w', associated_clients sample.no_members = (Return PyNone, w').
Proof.
  apply (getter_without_member_servers_is_none sample.no_members []);
    reflexivity.
Defined.

(** A call of the getter that returns, returns a list or [None]. *)
Lemma getter_returns_list_or_none w v w' :
  associated_clients w = (Return v, w') ->
  v = PyNone \/ exists l, v = PyList l.
Proof.
  unfold associated_clients.
  rewrite bind_run. simpl.
  rewrite bind_run. unfold getattr at 1. simpl.
  destruct (_asscociatedclients (self w)) as [a|] eqn:Ha; [|discriminate].
  rewrite bind_run. unfold lift at 1.
  destruct (py_contains a "memberServers") as [[|]|e]; [| |discriminate].
  2:{ intros [= <- _]. left. reflexivity. }
  rewrite bind_run. unfold getattr at 1. simpl. rewrite ?Ha.
  rewrite bind_run. unfold lift at 1.
  destruct (py_getitem a (PyStr "memberServers")) as [ms|e]; [|discriminate].
  rewrite bind_run. unfold lift at 1.
  destruct (py_iter ms) as [items|e]; [|discriminate].
  rewrite bind_run.
  match goal with
  | |- context [for_each items ?b ?w1] =>
      destruct (for_each items b w1) as [[[]|e] w2] eqn:Hloop;
      [|discriminate];
      pose proof (for_each_keeps
                    (fun w => exists l, _associated_clients (self w) = Some (PyList l))
                    b) as Hkeep
  end.
  assert (Hl : exists l, _associated_clients (self w2) = Some (PyList l)).
  { cbv beta in Hkeep. refine (Hkeep _ _ _ _ _ _ Hloop).
    - clear. intros x w r w' [l Hl].
      rewrite bind_run. unfold lift at 1.
      destruct (py_getitem x (PyStr "client")) as [c|e];
        [|intros [= <- <-]; eauto].
      rewrite bind_run. unfold lift at 1.
      destruct (py_getitem c (PyStr "clientName")) as [n|e];
        [|intros [= <- <-]; eauto].
      rewrite bind_run. unfold getattr. rewrite Hl.
      rewrite bind_run. simpl. intros [= <- <-]. simpl. eauto.
    - exists (@nil pyval). reflexivity. }
  destruct Hl as [l Hl]. unfold getattr. rewrite Hl.
  intros [= <- _]. right. eauto.
Qed.

(** C6, what the code does.  [co_ordinator] never returns: whatever the
    instance holds, it raises, and where the getter returns its list of
    names it is the [TypeError] of indexing a list with 'Clients'.  On the
    sample instance, whose one associated client is "proxy0", the getter
    returns ["proxy0"] and [co_ordinator] raises [TypeError]. *)
Theorem co_ordinator_always_raises :
  (forall w, exists e w', co_ordinator w = (Raise e, w'))
  /\ (forall w v w1,
        associated_clients w = (Return v, w1) ->
        co_ordinator w = (Raise TypeError, w1))
  /\ fst (associated_clients sample.loaded) = Return (PyList [PyStr "proxy0"])
  /\ fst (co_ordinator sample.loaded) = Raise TypeError.
Proof.
  assert (H : forall w v w1,
             associated_clients w = (Return v, w1) ->
             co_ordinator w = (Raise TypeError, w1)).
  { intros w v w1 Hget. unfold co_ordinator. rewrite bind_run, Hget.
    destruct (getter_returns_list_or_none _ _ _ Hget) as [->|[l ->]];
      reflexivity. }
  split; [|split; [exact H|split; vm_compute; reflexivity]].
  intros w. destruct (associated_clients w) as [[v|e] w1] eqn:Hget.
  - exists TypeError, w1. exact (H _ _ _ Hget).
  - exists e, w1. unfold co_ordinator. rewrite bind_run, Hget. reflexivity.
Qed.

(** ** Setter, fetch, getter *)

#[local] Arguments String.eqb : simpl never.




(** ** More of the catalogue *)

Lemma message_returns m c base :
  EXCEPTION_DICT_message m c = Return base ->
  exists by_id, EXCEPTION_DICT !! m = Some by_id /\ by_id !! c = Some base.
Proof.
  unfold EXCEPTION_DICT_message, getitem.
  destruct (EXCEPTION_DICT !! m) as [by_id|]; simpl; [|discriminate].
  destruct (by_id !! c) as [s|] eqn:Hc; [|discriminate].
  intros [= <-]. exists by_id. split; [reflexivity|exact Hc].
Qed.

(** A test that passes on every message listed for a table passes on
    every message that a lookup in it can return. *)
Lemma table_forall (table : gmap string (gmap string string))
    (p : string -> string -> string -> bool) :
  forallb (fun ml => forallb (fun cs => p (fst ml) (fst cs) (snd cs)) (snd ml))
          (List.map (fun md => (fst md, map_to_list (snd md))) (map_to_list table))
  = true ->
  forall m by_id c s,
    table !! m = Some by_id -> by_id !! c = Some s -> p m c s = true.
Proof.
  intros Hall m by_id c s Hm Hc.
  rewrite forallb_forall in Hall.
  assert (Hin : List.In (m, map_to_list by_id)
                  (List.map (fun md => (fst md, map_to_list (snd md)))
                            (map_to_list table))).
  { apply in_map_iff. exists (m, by_id). split; [reflexivity|].
    apply list_elem_of_In, elem_of_map_to_list. exact Hm. }
  specialize (Hall _ Hin). cbn [fst snd] in Hall.
  rewrite forallb_forall in Hall.
  apply (Hall (c, s)).
  apply list_elem_of_In, elem_of_map_to_list. exact Hc.
Qed.

Lemma catalogue_forall (p : string -> string -> string -> bool) :
  forallb (fun ml => forallb (fun cs => p (fst ml) (fst cs) (snd cs)) (snd ml))
          catalogue_entries = true ->
  forall m by_id c s,
    EXCEPTION_DICT !! m = Some by_id -> by_id !! c = Some s -> p m c s = true.
Proof. exact (table_forall EXCEPTION_DICT p). Qed.

Lemma empty_message_is_102 m by_id c :
  EXCEPTION_DICT !! m = Some by_id -> by_id !! c = Some "" -> c = "102".
Proof.
  intros Hm Hc.
  pose proof (catalogue_forall
                (fun _ c s => negb (String.eqb s "") || String.eqb c "102")
                ltac:(vm_compute; reflexivity) m by_id c "" Hm Hc) as H.
  cbv beta in H. rewrite String.eqb_refl in H. apply String.eqb_eq. exact H.
Qed.

(** An exception with an empty message comes only from id '102' built
    without a detail: if [SDKException(module, id, detail)] is built and
    its message is empty, then the detail is empty and the id is '102'. *)
Theorem empty_message_only_from_102 m c detail :
  SDKException_init m c detail = Return (SDKException m c "") ->
  detail = "" /\ c = "102".
Proof.
  unfold SDKException_init.
  destruct (EXCEPTION_DICT_message m c) as [base|e] eqn:Hbase; [|discriminate].
  destruct (message_returns _ _ _ Hbase) as (by_id & Hm & Hc).
  simpl. destruct (String.eqb detail "") eqn:Hd; simpl.
  - apply String.eqb_eq in Hd. intros [= ->]. split; [exact Hd|].
    exact (empty_message_is_102 _ _ _ Hm Hc).
  - destruct (String.eqb base "") eqn:Hb; simpl.
    + intros [= ->]. discriminate.
    + destruct base; [discriminate|]. intros [=].
Qed.

Lemma empty_message_only_from_102_witness :
  SDKException_init "Job" "102" "" = Return (SDKException "Job" "102" "")
  /\ "" = "" /\ "102" = "102".
Proof.
  split; [vm_compute; reflexivity|].
  apply (empty_message_only_from_102 "Job" "102" "").
  vm_compute. reflexivity.
Defined.

Lemma table_modules_forall (table : gmap string (gmap string string))
    (p : gmap string string -> bool) :
  forallb (fun md => p (snd md)) (map_to_list table) = true ->
  forall m by_id, table !! m = Some by_id -> p by_id = true.
Proof.
  intros Hall m by_id Hm. rewrite forallb_forall in Hall.
  apply (Hall (m, by_id)).
  apply list_elem_of_In, elem_of_map_to_list. exact Hm.
Qed.

Lemma modules_forall (p : gmap string string -> bool) :
  forallb (fun md => p (snd md)) (map_to_list EXCEPTION_DICT) = true ->
  forall m by_id, EXCEPTION_DICT !! m = Some by_id -> p by_id = true.
Proof. exact (table_modules_forall EXCEPTION_DICT p). Qed.

(** For every module of the catalogue, [SDKException(module, '101')] is
    built, and its message is not empty. *)
Theorem every_module_has_101 m by_id :
  EXCEPTION_DICT !! m = Some by_id ->
  exists s,
    by_id !! "101" = Some s /\ s <> ""
    /\ SDKException_init m "101" "" = Return (SDKException m "101" s).
Proof.
  intros Hm.
  assert (Hall : forallb (fun md : string * gmap string string =>
                            match snd md !! "101" with
                            | Some s => negb (String.eqb s "")
                            | None => false
                            end) (map_to_list EXCEPTION_DICT) = true)
    by (vm_compute; reflexivity).
  pose proof (modules_forall
                (fun d => match d !! "101" with
                          | Some s => negb (String.eqb s "")
                          | None => false
                          end) Hall m by_id Hm) as H.
  cbv beta in H. destruct (by_id !! "101") as [s|] eqn:Hs; [|discriminate].
  exists s. split; [reflexivity|]. split.
  - intros ->. discriminate.
  - unfold SDKException_init. rewrite (message_present _ _ _ _ Hm Hs).
    reflexivity.
Qed.

Lemma every_module_has_101_witness :
  exists s,
    ({[ "101" := "Invalid input(s) specified" ]} : gmap string string) !! "101"
    = Some s
    /\ s <> ""
    /\ SDKException_init "Metrics" "101" "" = Return (SDKException "Metrics" "101" s).
Proof.
  apply (every_module_has_101 "Metrics"). vm_compute. reflexivity.
Defined.

(** ** More of the dispatch *)

Lemma find_by_unique_key {B} (f : string -> string) (l : list (string * B)) k v :
  List.NoDup (List.map (fun p => f (fst p)) l) ->
  List.In (k, v) l ->
  List.find (fun p => String.eqb (f k) (f (fst p))) l = Some (k, v).
Proof.
  induction l as [|[k' v'] l IH]; simpl; [tauto|].
  intros Hnd [Heq|Hin].
  - injection Heq as -> ->. rewrite String.eqb_refl. reflexivity.
  - apply List.NoDup_cons_iff in Hnd as [Hnotin Hnd].
    destruct (String.eqb (f k) (f k')) eqn:E.
    + apply String.eqb_eq in E. exfalso. apply Hnotin.
      rewrite <- E. apply in_map_iff. exists (k, v). split; [reflexivity|exact Hin].
    + exact (IH Hnd Hin).
Qed.

(** Whatever class [__new__] selects, the name is the lower-cased value
    of that class's discriminator; and when the five lower-cased values
    differ from one another, each of them selects its own class. *)
Theorem new_selects_by_own_discriminator hv c :
  (forall name,
      __new__ hv name = Some c ->
      exists d, List.In (d, c) (discriminators hv) /\ name = lower d)
  /\ (List.NoDup (List.map (fun p => lower (fst p)) (discriminators hv)) ->
      forall d, List.In (d, c) (discriminators hv) ->
                __new__ hv (lower d) = Some c).
Proof.
  split.
  - intros name. rewrite new_first_match.
    destruct (List.find _ (discriminators hv)) as [[d c']|] eqn:Hfind;
      [|discriminate].
    simpl. intros [= ->]. apply List.find_some in Hfind as [Hin Heq].
    exists d. split; [exact Hin|]. apply String.eqb_eq. exact Heq.
  - intros Hnd d Hin. rewrite new_first_match.
    rewrite (find_by_unique_key lower _ d c Hnd Hin). reflexivity.
Qed.

Lemma new_selects_by_own_discriminator_witness :
  __new__ sample.hypervisor_types (lower "Azure Resource Manager")
  = Some AzureRMInstance
  /\ exists d, List.In (d, AmazonInstance) (discriminators sample.hypervisor_types)
               /\ "amazon" = lower d.
Proof.
  split.
  - apply (proj2 (new_selects_by_own_discriminator
                    sample.hypervisor_types AzureRMInstance)).
    + repeat constructor; simpl; intuition discriminate.
    + simpl. tauto.
  - apply (proj1 (new_selects_by_own_discriminator
                    sample.hypervisor_types AmazonInstance)).
    reflexivity.
Defined.

(** ** More of the getter *)

Lemma with_names_same w acc :
  _associated_clients (self w) = Some (PyList acc) -> with_names acc w = w.
Proof.
  destruct w as [[cc props vsi vst assoc names] srv]. simpl.
  intros ->. reflexivity.
Qed.

(** The loop of the getter is [names_of]: it stops at the first entry
    whose name cannot be read, with the names read so far kept. *)
Lemma getter_loop_reads (body : pyval -> M unit) :
  (forall x acc w,
      body x (with_names acc w)
      = match entry_name x with
        | Return name => (Return tt, with_names (acc ++ [name]) w)
        | Raise e => (Raise e, with_names acc w)
        end) ->
  forall items acc w,
    for_each items body (with_names acc w)
    = (fst (names_of items acc), with_names (snd (names_of items acc)) w).
Proof.
  intros Hbody items. induction items as [|x items IH]; intros acc w; simpl.
  - reflexivity.
  - rewrite bind_run, Hbody. destruct (entry_name x) as [name|e]; simpl.
    + apply IH.
    + reflexivity.
Qed.

(** The getter is [getter_reading] of [self._asscociatedclients]: that
    attribute alone decides what the call returns or raises, and the call
    changes [self._associated_clients] and nothing else. *)
Lemma getter_reads w :
  associated_clients w
  = (fst (getter_reading (_asscociatedclients (self w))),
     with_names (snd (getter_reading (_asscociatedclients (self w)))) w).
Proof.
  unfold associated_clients, getter_reading.
  rewrite bind_run.
  change (set__associated_clients (PyList []) w)
    with (Return tt, with_names [] w).
  cbv beta iota. rewrite bind_run. unfold getattr at 1.
  change (_asscociatedclients (self (with_names [] w)))
    with (_asscociatedclients (self w)).
  destruct (_asscociatedclients (self w)) as [a|] eqn:Ha; [|reflexivity].
  cbv beta iota. rewrite bind_run. unfold lift at 1.
  destruct (py_contains a "memberServers") as [[|]|e]; [| reflexivity..].
  cbv beta iota. rewrite bind_run. unfold getattr at 1.
  change (_asscociatedclients (self (with_names [] w)))
    with (_asscociatedclients (self w)).
  rewrite Ha. cbv beta iota. rewrite bind_run. unfold lift at 1.
  destruct (py_getitem a (PyStr "memberServers")) as [ms|e]; [|reflexivity].
  cbv beta iota. rewrite bind_run. unfold lift at 1.
  destruct (py_iter ms) as [items|e]; [|reflexivity].
  cbv beta iota. rewrite bind_run.
  match goal with
  | |- context [for_each items ?b _] => rewrite (getter_loop_reads b)
  end.
  - destruct (names_of items []) as [[[]|e] names]; reflexivity.
  - intros x acc w0. unfold entry_name.
    rewrite bind_run. unfold lift at 1.
    destruct (py_getitem x (PyStr "client")) as [c|e]; [|reflexivity].
    cbv beta iota. simpl obind. rewrite bind_run. unfold lift at 1.
    destruct (py_getitem c (PyStr "clientName")) as [name|e]; [|reflexivity].
    reflexivity.
Qed.

(** A second call of the getter returns or raises what the first did and
    leaves the instance as the first left it: the list does not grow from
    call to call.  Two instances with the same
    [self._asscociatedclients] get the same answer. *)
Theorem getter_call_repeats :
  (forall w, associated_clients (snd (associated_clients w)) = associated_clients w)
  /\ (forall w1 w2,
        _asscociatedclients (self w1) = _asscociatedclients (self w2) ->
        fst (associated_clients w1) = fst (associated_clients w2)).
Proof.
  split.
  - intros w. rewrite (getter_reads w). simpl snd.
    rewrite (getter_reads (with_names _ w)). reflexivity.
  - intros w1 w2 H. rewrite !getter_reads. simpl. rewrite H. reflexivity.
Qed.

Lemma names_of_all items names :
  Forall2 (fun item name => entry_name item = Return name) items names ->
  forall acc, names_of items acc = (Return tt, acc ++ names).
Proof.
  induction 1 as [|item name items names Hx _ IH]; intros acc; simpl.
  - rewrite app_nil_r. reflexivity.
  - rewrite Hx, IH, <- app_assoc. reflexivity.
Qed.

Lemma names_of_until items names bad rest e :
  Forall2 (fun item name => entry_name item = Return name) items names ->
  entry_name bad = Raise e ->
  forall acc, names_of (items ++ bad :: rest) acc = (Raise e, acc ++ names).
Proof.
  intros Hall Hbad.
  induction Hall as [|item name items names Hx _ IH]; intros acc; simpl.
  - rewrite Hbad, app_nil_r. reflexivity.
  - rewrite Hx, IH, <- app_assoc. reflexivity.
Qed.

Lemma getter_reading_list d items :
  dict_get d "memberServers" = Some (PyList items) ->
  getter_reading (Some (PyDict d))
  = match names_of items [] with
    | (Return _, names) => (Return (PyList names), names)
    | (Raise e, names) => (Raise e, names)
    end.
Proof.
  intros Hd. unfold getter_reading, py_contains, py_getitem, py_iter.
  rewrite (dict_get_has_key _ _ _ Hd), Hd. reflexivity.
Qed.

(** With a 'memberServers' list whose entries all carry
    ["client"]["clientName"], the getter returns those values, one per
    entry and in the order of the entries, and keeps the same list in
    [self._associated_clients]. *)
Theorem getter_returns_every_client_name w d items names :
  _asscociatedclients (self w) = Some (PyDict d) ->
  dict_get d "memberServers" = Some (PyList items) ->
  Forall2 (fun item name => entry_name item = Return name) items names ->
  associated_clients w = (Return (PyList names), with_names names w).
Proof.
  intros Ha Hd Hall. rewrite getter_reads, Ha, (getter_reading_list _ _ Hd).
  rewrite (names_of_all _ _ Hall []). reflexivity.
Qed.

Lemma getter_returns_every_client_name_witness :
  associated_clients sample.loaded
  = (Return (PyList [PyStr "proxy0"]), with_names [PyStr "proxy0"] sample.loaded).
Proof.
  eapply (getter_returns_every_client_name sample.loaded).
  - reflexivity.
  - reflexivity.
  - repeat constructor.
Defined.

(** With a 'memberServers' list in which some entry's name cannot be
    read, the getter raises what reading the first such entry raises; the
    names of the entries before it stay in [self._associated_clients],
    and the entries after it are not looked at. *)
Theorem getter_stops_at_unreadable_entry w d items names bad rest e :
  _asscociatedclients (self w) = Some (PyDict d) ->
  dict_get d "memberServers" = Some (PyList (items ++ bad :: rest)) ->
  Forall2 (fun item name => entry_name item = Return name) items names ->
  entry_name bad = Raise e ->
  associated_clients w = (Raise e, with_names names w).
Proof.
  intros Ha Hd Hall Hbad.
  rewrite getter_reads, Ha, (getter_reading_list _ _ Hd).
  rewrite (names_of_until _ _ _ _ _ Hall Hbad []). reflexivity.
Qed.

Lemma getter_stops_at_unreadable_entry_witness :
  associated_clients sample.broken_member
  = (Raise (KeyError (PyStr "client")),
     with_names [PyStr "proxy0"] sample.broken_member).
Proof.
  eapply (getter_stops_at_unreadable_entry sample.broken_member _
            [PyDict [("client", PyDict [("clientName", PyStr "proxy0")])]]
            [PyStr "proxy0"]
            (PyDict [("clientGroup", PyDict [])])).
  - reflexivity.
  - reflexivity.
  - repeat constructor.
  - reflexivity.
Defined.

(** When [self._asscociatedclients] is [None], a boolean or a number, as
    it is after a fetch that found no 'virtualServerInstance' block, the
    getter raises [TypeError]; when the attribute was never assigned it
    raises [AttributeError].  Either way [self._associated_clients] has
    been reset to the empty list. *)
Theorem getter_without_container_raises w :
  (forall a,
      _asscociatedclients (self w) = Some a ->
      a = PyNone \/ (exists b, a = PyBool b) \/ (exists n, a = PyInt n) ->
      associated_clients w = (Raise TypeError, with_names [] w))
  /\ (_asscociatedclients (self w) = None ->
      associated_clients w = (Raise AttributeError, with_names [] w)).
Proof.
  split.
  - intros a Ha Hshape. rewrite getter_reads, Ha.
    destruct Hshape as [->|[[b ->]|[n ->]]]; reflexivity.
  - intros Ha. rewrite getter_reads, Ha. reflexivity.
Qed.

Lemma getter_without_container_raises_witness :
  associated_clients sample.fresh
  = (Raise AttributeError, with_names [] sample.fresh).
Proof.
  apply (proj2 (getter_without_container_raises sample.fresh)). reflexivity.
Defined.

(** ** More of the fetch *)

(** A fetch whose base-class part returns with a properties dict that has
    no 'virtualServerInstance' key returns too: the type and the
    associated clients are [None], [self._virtualserverinstance] is what
    it was before the call, and the getter of [associated_clients] then
    raises [TypeError]. *)
Theorem fetch_without_block_leaves_none w w0 d :
  Instance_get_instance_properties w = (Return tt, w0) ->
  _properties (self w0) = Some (PyDict d) ->
  dict_get d "virtualServerInstance" = None ->
  exists w',
    _get_instance_properties w = (Return tt, w')
    /\ _vsinstancetype (self w') = Some PyNone
    /\ _asscociatedclients (self w') = Some PyNone
    /\ _virtualserverinstance (self w') = _virtualserverinstance (self w0)
    /\ server w' = server w0
    /\ fst (associated_clients w') = Raise TypeError.
Proof.
  intros Hbase Hprops Hd. unfold _get_instance_properties.
  rewrite bind_run, Hbase. cbv beta iota.
  do 2 run. rewrite bind_run. unfold getattr at 1. simpl. rewrite Hprops.
  run. rewrite (dict_get_no_key _ _ Hd).
  eexists. split; [reflexivity|].
  repeat (split; [reflexivity|]).
  rewrite getter_reads. reflexivity.
Qed.

Lemma fetch_without_block_leaves_none_witness :
  exists w',
    _get_instance_properties sample.plain = (Return tt, w')
    /\ _vsinstancetype (self w') = Some PyNone
    /\ _asscociatedclients (self w') = Some PyNone
    /\ _virtualserverinstance (self w') = None
    /\ server w' = server sample.plain
    /\ fst (associated_clients w') = Raise TypeError.
Proof.
  exact (fetch_without_block_leaves_none
           sample.plain (snd (Instance_get_instance_properties sample.plain))
           [("instance", PyDict [("instanceName", PyStr "default")])]
           eq_refl eq_refl eq_refl).
Defined.

(** A fetch whose properties dict has a 'virtualServerInstance' dict
    without 'vsInstanceType' raises the [KeyError] of that key, with the
    block already in [self._virtualserverinstance] and the type and the
    associated clients [None]; with the type present and
    'associatedClients' missing it raises the [KeyError] of that key, the
    type already assigned and the associated clients [None]. *)
Theorem fetch_with_incomplete_block w w0 d vsi :
  Instance_get_instance_properties w = (Return tt, w0) ->
  _properties (self w0) = Some (PyDict d) ->
  dict_get d "virtualServerInstance" = Some (PyDict vsi) ->
  (dict_get vsi "vsInstanceType" = None ->
   exists w',
     _get_instance_properties w = (Raise (KeyError (PyStr "vsInstanceType")), w')
     /\ _virtualserverinstance (self w') = Some (PyDict vsi)
     /\ _vsinstancetype (self w') = Some PyNone
     /\ _asscociatedclients (self w') = Some PyNone)
  /\ (forall t,
        dict_get vsi "vsInstanceType" = Some t ->
        dict_get vsi "associatedClients" = None ->
        exists w',
          _get_instance_properties w
          = (Raise (KeyError (PyStr "associatedClients")), w')
          /\ _virtualserverinstance (self w') = Some (PyDict vsi)
          /\ _vsinstancetype (self w') = Some t
          /\ _asscociatedclients (self w') = Some PyNone).
Proof.
  intros Hbase Hprops Hvsi.
  assert (Hstart : exists w1,
             _get_instance_properties w
             = (vsi0 ← getattr _virtualserverinstance;
                v ← lift (py_getitem vsi0 (PyStr "vsInstanceType"));
                set__vsinstancetype v;;
                vsi1 ← getattr _virtualserverinstance;
                v ← lift (py_getitem vsi1 (PyStr "associatedClients"));
                set__asscociatedclients v) w1
             /\ _virtualserverinstance (self w1) = Some (PyDict vsi)
             /\ _vsinstancetype (self w1) = Some PyNone
             /\ _asscociatedclients (self w1) = Some PyNone).
  { unfold _get_instance_properties.
    rewrite bind_run, Hbase. cbv beta iota.
    do 2 run. rewrite bind_run. unfold getattr at 1. simpl. rewrite Hprops.
    run. rewrite (dict_get_has_key _ _ _ Hvsi).
    rewrite bind_run. unfold getattr at 1. simpl. rewrite ?Hprops.
    run. rewrite Hvsi. run.
    eexists. split; [reflexivity|]. simpl. auto. }
  destruct Hstart as (w1 & -> & H1 & H2 & H3).
  split.
  - intros Ht. exists w1.
    rewrite bind_run. unfold getattr at 1. rewrite H1.
    rewrite bind_run. simpl. rewrite Ht. auto.
  - intros t Ht Ha.
    rewrite bind_run. unfold getattr at 1. rewrite H1.
    rewrite bind_run. simpl. rewrite Ht.
    run. rewrite bind_run. unfold getattr at 1. simpl. rewrite H1.
    run. rewrite Ha.
    eexists. split; [reflexivity|]. simpl. auto.
Qed.

Lemma fetch_with_incomplete_block_witness :
  exists w',
    _get_instance_properties sample.untyped
    = (Raise (KeyError (PyStr "vsInstanceType")), w')
    /\ _virtualserverinstance (self w')
       = Some (PyDict [("associatedClients", PyDict [])])
    /\ _vsinstancetype (self w') = Some PyNone
    /\ _asscociatedclients (self w') = Some PyNone.
Proof.
  exact (proj1 (fetch_with_incomplete_block
                  sample.untyped
                  (snd (Instance_get_instance_properties sample.untyped))
                  [("virtualServerInstance",
                    PyDict [("associatedClients", PyDict [])])]
                  [("associatedClients", PyDict [])]
                  eq_refl eq_refl eq_refl)
               eq_refl).
Defined.

(** ** The properties document *)

(** After a fetch whose properties dict has the 'virtualServerInstance'
    dict with both keys, [_get_instance_properties_json] returns the
    document with isDeleted false, the two attributes of the base class,
    and a 'virtualServerInstance' block of exactly two keys holding the
    fetched type and associated clients; what else the fetched block held
    is not in it.  The call changes nothing. *)
Theorem properties_json_after_fetch base w w0 d vsi t a instance activity :
  Instance_get_instance_properties w = (Return tt, w0) ->
  _properties (self w0) = Some (PyDict d) ->
  dict_get d "virtualServerInstance" = Some (PyDict vsi) ->
  dict_get vsi "vsInstanceType" = Some t ->
  dict_get vsi "associatedClients" = Some a ->
  _instance base = Some instance ->
  _instanceActivityControl base = Some activity ->
  exists w1,
    _get_instance_properties w = (Return tt, w1)
    /\ _get_instance_properties_json base w1
       = (Return
            (PyDict
               [("instanceProperties",
                 PyDict
                   [("isDeleted", PyBool false);
                    ("instance", instance);
                    ("instanceActivityControl", activity);
                    ("virtualServerInstance",
                     PyDict [("vsInstanceType", t);
                             ("associatedClients", a)])])]),
          w1).
Proof.
  intros Hbase Hprops Hvsi Ht Ha Hi Hc. unfold _get_instance_properties.
  rewrite bind_run, Hbase. cbv beta iota.
  do 2 run. rewrite bind_run. unfold getattr at 1. simpl. rewrite Hprops.
  run. rewrite (dict_get_has_key _ _ _ Hvsi).
  rewrite bind_run. unfold getattr at 1. simpl. rewrite ?Hprops.
  run. rewrite Hvsi. do 3 run. rewrite Ht. do 3 run. rewrite Ha. simpl.
  eexists. split; [reflexivity|].
  unfold _get_instance_properties_json, attribute. rewrite Hi, Hc.
  do 4 run. rewrite Ht. do 2 run. rewrite Ha. reflexivity.
Qed.

Lemma properties_json_after_fetch_witness :
  exists w1,
    _get_instance_properties sample.fresh = (Return tt, w1)
    /\ _get_instance_properties_json sample.base_attributes w1
       = (Return
            (PyDict
               [("instanceProperties",
                 PyDict
                   [("isDeleted", PyBool false);
                    ("instance", PyDict [("instanceName", PyStr "virtualcenter")]);
                    ("instanceActivityControl", PyDict []);
                    ("virtualServerInstance",
                     PyDict
                       [("vsInstanceType", PyInt 1);
                        ("associatedClients",
                         PyDict
                           [("memberServers",
                             PyList
                               [PyDict
                                  [("client",
                                    PyDict [("clientName", PyStr "proxy0")])]])])])])]),
          w1).
Proof.
  refine (properties_json_after_fetch
            sample.base_attributes sample.fresh
            (snd (Instance_get_instance_properties sample.fresh))
            _ _ (PyInt 1) _ _ _ eq_refl eq_refl eq_refl eq_refl eq_refl
            eq_refl eq_refl).
Defined.

(** [_get_instance_properties_json] changes nothing, whether it returns
    or raises; on an instance whose [self._virtualserverinstance] was
    never assigned, as after a first fetch that found no
    'virtualServerInstance' block, it raises [AttributeError]. *)
Theorem properties_json_needs_fetched_block base w :
  snd (_get_instance_properties_json base w) = w
  /\ (forall instance activity,
        _instance base = Some instance ->
        _instanceActivityControl base = Some activity ->
        _virtualserverinstance (self w) = None ->
        _get_instance_properties_json base w = (Raise AttributeError, w)).
Proof.
  split.
  - unfold _get_instance_properties_json, attribute.
    rewrite bind_run. destruct (_instance base); [|reflexivity].
    cbv beta iota. rewrite bind_run.
    destruct (_instanceActivityControl base); [|reflexivity].
    cbv beta iota. rewrite bind_run. unfold getattr at 1.
    destruct (_virtualserverinstance (self w)) as [vsi|] eqn:Hv; [|reflexivity].
    cbv beta iota. rewrite bind_run. unfold lift at 1.
    destruct (py_getitem vsi (PyStr "vsInstanceType")); [|reflexivity].
    cbv beta iota. rewrite bind_run. unfold getattr. rewrite Hv.
    cbv beta iota. rewrite bind_run. unfold lift at 1.
    destruct (py_getitem vsi (PyStr "associatedClients")); reflexivity.
  - intros instance activity Hi Hc Hv.
    unfold _get_instance_properties_json, attribute. rewrite Hi, Hc.
    do 2 run. rewrite bind_run. unfold getattr. rewrite Hv. reflexivity.
Qed.

Lemma properties_json_needs_fetched_block_witness :
  _get_instance_properties_json sample.base_attributes
    (snd (_get_instance_properties sample.plain))
  = (Raise AttributeError, snd (_get_instance_properties sample.plain)).
Proof.
  eapply (proj2 (properties_json_needs_fetched_block sample.base_attributes _));
    reflexivity.
Defined.

(** A fetch that finds no 'virtualServerInstance' block does not clear
    the block an earlier fetch left in [self._virtualserverinstance]:
    afterwards the associated clients of the instance are [None], while
    [_get_instance_properties_json] still returns the type and the
    associated clients of the earlier block. *)
Theorem properties_json_keeps_earlier_block
    base w w0 d vsi t a instance activity :
  Instance_get_instance_properties w = (Return tt, w0) ->
  _properties (self w0) = Some (PyDict d) ->
  dict_get d "virtualServerInstance" = None ->
  _virtualserverinstance (self w0) = Some (PyDict vsi) ->
  dict_get vsi "vsInstanceType" = Some t ->
  dict_get vsi "associatedClients" = Some a ->
  _instance base = Some instance ->
  _instanceActivityControl base = Some activity ->
  exists w1,
    _get_instance_properties w = (Return tt, w1)
    /\ _asscociatedclients (self w1) = Some PyNone
    /\ _get_instance_properties_json base w1
       = (Return
            (PyDict
               [("instanceProperties",
                 PyDict
                   [("isDeleted", PyBool false);
                    ("instance", instance);
                    ("instanceActivityControl", activity);
                    ("virtualServerInstance",
                     PyDict [("vsInstanceType", t);
                             ("associatedClients", a)])])]),
          w1).
Proof.
  intros Hbase Hprops Hd Hv Ht Ha Hi Hc. unfold _get_instance_properties.
  rewrite bind_run, Hbase. cbv beta iota.
  do 2 run. rewrite bind_run. unfold getattr at 1. simpl. rewrite Hprops.
  run. rewrite (dict_get_no_key _ _ Hd).
  eexists. split; [reflexivity|]. split; [reflexivity|].
  unfold _get_instance_properties_json, attribute. rewrite Hi, Hc.
  do 2 run. rewrite bind_run. unfold getattr at 1. simpl. rewrite Hv.
  run. rewrite Ht. do 2 run. rewrite Ha. reflexivity.
Qed.

Lemma properties_json_keeps_earlier_block_witness :
  exists w1,
    _get_instance_properties
      {| self := self sample.loaded; server := server sample.plain |}
    = (Return tt, w1)
    /\ _asscociatedclients (self w1) = Some PyNone
    /\ _get_instance_properties_json sample.base_attributes w1
       = (Return
            (PyDict
               [("instanceProperties",
                 PyDict
                   [("isDeleted", PyBool false);
                    ("instance", PyDict [("instanceName", PyStr "virtualcenter")]);
                    ("instanceActivityControl", PyDict []);
                    ("virtualServerInstance",
                     PyDict
                       [("vsInstanceType", PyInt 1);
                        ("associatedClients",
                         PyDict
                           [("memberServers",
                             PyList
                               [PyDict
                                  [("client",
                                    PyDict [("clientName", PyStr "proxy0")])]])])])])]),
          w1).
Proof.
  refine (properties_json_keeps_earlier_block
            sample.base_attributes
            {| self := self sample.loaded; server := server sample.plain |}
            (snd (Instance_get_instance_properties
                    {| self := self sample.loaded; server := server sample.plain |}))
            [("instance", PyDict [("instanceName", PyStr "default")])]
            _ (PyInt 1) _ _ _
            eq_refl eq_refl eq_refl eq_refl eq_refl eq_refl eq_refl eq_refl).
Defined.

(** ** Setter, then getter *)



